(** * Shows Review: the page handlers and the route table

    A shallow embedding of the executable core of the repository:
    - [src/controllers/routes.js]: the three page handlers;
    - the server entry file: the middleware stack, the three GET
      registrations and the choice of the listening port.

    JavaScript objects used as maps are [gmap string _]; the response object
    a handler writes to is threaded explicitly. *)

From Stdlib Require Import ZArith.
From stdpp Require Import base strings pretty gmap list.

Local Open Scope string_scope.
Local Open Scope list_scope.

(** ** JavaScript values *)

Module JS.

(** The values the core handles: [undefined], strings and numbers. *)
Inductive value : Type :=
| Undefined
| Str (s : string)
| Num (n : Z).

#[global] Instance value_eq_dec : EqDecision value.
Proof. solve_decision. Defined.

(** ToBoolean: [undefined], the empty string and [0] are falsy. *)
Definition truthy (v : value) : bool :=
  match v with
  | Undefined => false
  | Str s => negb (String.eqb s "")
  | Num n => negb (Z.eqb n 0)
  end.

(** [a || b]: the left operand when it is truthy, else the right one. *)
Definition or (a b : value) : value :=
  if truthy a then a else b.

End JS.

(** ** Requests, view descriptors and responses *)

Module Http.

Inductive Method : Type :=
| GET | HEAD | POST | PUT | DELETE | PATCH | OPTIONS.

#[global] Instance Method_eq_dec : EqDecision Method.
Proof. solve_decision. Defined.

(** What a handler can read of an inbound request. *)
Record Request : Type := mkRequest {
  method : Method;
  path : string;
  query : list (string * string);
  headers : list (string * string);
  body : JS.value
}.

(** A template name and the object of locals handed to the template. *)
Record ViewDescriptor : Type := mkView {
  templateName : string;
  context : gmap string JS.value
}.

(** The response object [res] of one request: its status code and the
    render requests made on it so far, oldest first. *)
Record Response : Type := mkResponse {
  statusCode : Z;
  rendered : list ViewDescriptor
}.

(** The response object a request starts with. *)
Definition new_response : Response :=
  {| statusCode := 200; rendered := [] |}.

(** Modelled from the spec: [res.render(view, locals)] belongs to the
    framework's response object, which is not part of the sources.  The
    spec has a handler hand a template name and a context mapping to the
    rendering collaborator; the call is recorded on the response and the
    status code is left as it is. *)
Definition render (view : string) (locals : gmap string JS.value)
    (res : Response) : Response :=
  {| statusCode := statusCode res;
     rendered := rendered res ++ [ {| templateName := view; context := locals |} ] |}.

End Http.

(** ** [src/controllers/routes.js] *)

Module Routes.
Import Http.

Definition Handler : Type := Request → Response → Response.

Definition renderHome : Handler := λ req res,
  render "home"
    {[ "title" := JS.Str "Home - Shows Review";
       "currentPage" := JS.Str "home" ]} res.

Definition renderMovies : Handler := λ req res,
  render "movies"
    {[ "title" := JS.Str "Movies - Shows Review";
       "currentPage" := JS.Str "movies" ]} res.

Definition renderTVShows : Handler := λ req res,
  render "tv-shows"
    {[ "title" := JS.Str "TV Shows - Shows Review";
       "currentPage" := JS.Str "tv-shows" ]} res.

(** The three exported handlers, by name. *)
Inductive HandlerName : Type :=
| RenderHome | RenderMovies | RenderTVShows.

#[global] Instance HandlerName_eq_dec : EqDecision HandlerName.
Proof. solve_decision. Defined.

Definition handler (h : HandlerName) : Handler :=
  match h with
  | RenderHome => renderHome
  | RenderMovies => renderMovies
  | RenderTVShows => renderTVShows
  end.

(** The view descriptors a handler produces for a request: the render
    requests it makes on a response that has none yet. *)
Definition produced (h : HandlerName) (req : Request) : list ViewDescriptor :=
  rendered (handler h req new_response).

(** The page identifiers the navigation bar knows. *)
Definition navigation_ids : list JS.value :=
  [JS.Str "home"; JS.Str "movies"; JS.Str "tv-shows"].

End Routes.

(** ** The server entry file *)

Module Server.
Import Http Routes.

(** *** The listening port *)

(** [process.env.NAME]: the variable's string, or [undefined]. *)
Definition env_get (env : gmap string string) (name : string) : JS.value :=
  match env !! name with
  | Some s => JS.Str s
  | None => JS.Undefined
  end.

(** [const PORT = process.env.PORT || 3000] *)
Definition PORT (env : gmap string string) : JS.value :=
  JS.or (env_get env "PORT") (JS.Num 3000).

(** *** The application stack *)

(** A middleware either passes a request on ([next()]) or ends it with
    a response of its own. *)
Inductive MwOutcome : Type :=
| Next (req : Request)
| Done (res : Response).

Definition Middleware : Type := Request → MwOutcome.

(** The layers of an application, in registration order:
    [app.use(mw)] and [app.METHOD(path, handler)]. *)
Inductive Layer : Type :=
| Use (mw : Middleware)
| Route (m : Method) (p : string) (h : HandlerName).

(** What dispatching one request gives: the handlers that were invoked
    and the response. *)
Record Outcome : Type := mkOutcome {
  invoked : list HandlerName;
  response : Response
}.

(** Modelled from the spec: the framework's route matching is not part
    of the sources.  The spec has a registration stand for exactly one
    method and, in this core, a literal path. *)
Definition route_matches (m : Method) (p : string) (req : Request) : bool :=
  bool_decide (method req = m) && String.eqb (path req) p.

(** Modelled from the spec: the terminal outcome of a request no
    registration matches, status 404 and nothing rendered. *)
Definition not_found (res : Response) : Response :=
  {| statusCode := 404; rendered := rendered res |}.

(** Modelled from the spec: the framework's dispatch loop is not part of
    the sources.  The layers are tried in registration order; the first
    registration whose method and path match gets the request, and a
    request that falls off the end is not found. *)
Fixpoint dispatch (stack : list Layer) (req : Request) (res : Response)
    : Outcome :=
  match stack with
  | [] => {| invoked := []; response := not_found res |}
  | Use mw :: rest =>
      match mw req with
      | Next req' => dispatch rest req' res
      | Done res' => {| invoked := []; response := res' |}
      end
  | Route m p h :: rest =>
      if route_matches m p req
      then {| invoked := [h]; response := handler h req res |}
      else dispatch rest req res
  end.

(** [app.get('/', renderHome); app.get('/movies', renderMovies);
    app.get('/tv-shows', renderTVShows);] *)
Definition routes : list Layer :=
  [ Route GET "/" RenderHome;
    Route GET "/movies" RenderMovies;
    Route GET "/tv-shows" RenderTVShows ].

Definition registered_paths : list string :=
  ["/"; "/movies"; "/tv-shows"].

(** The Dispatcher on its own: the three registrations and the
    not-found outcome. *)
Definition router (req : Request) : Outcome :=
  dispatch routes req new_response.

Section App.

(** The body parsers and the static-asset collaborator are external;
    the application is given them. *)
Variables urlencoded json static : Middleware.

(** [app.use(express.urlencoded(..)); app.use(express.json());
    app.use(express.static(..))], then the routes. *)
Definition app_stack : list Layer :=
  [Use urlencoded; Use json; Use static] ++ routes.

Definition app (req : Request) : Outcome :=
  dispatch app_stack req new_response.

(** The request as the routes see it, when all three middleware
    pass it on. *)
Definition through_middleware (req : Request) : MwOutcome :=
  match urlencoded req with
  | Next r1 =>
      match json r1 with
      | Next r2 => static r2
      | Done res => Done res
      end
  | Done res => Done res
  end.

(** Modelled from the spec: the framework's accept loop is not part of
    the sources.  The spec has the process take one request per
    invocation, each on a response object of its own. *)
Definition serve (reqs : list Request) : list Outcome :=
  map app reqs.

End App.

End Server.

(** ** Starting the process *)

Module Startup.
Import Server.






End Startup.

(** ** Keys of a route table *)

Module Table.
Import Http Server.

(** The method and path a layer is registered for; a middleware has
    none, it sees every request. *)
Definition route_key (l : Layer) : option (Method * string) :=
  match l with
  | Route m p _ => Some (m, p)
  | Use _ => None
  end.

Definition route_keys (stack : list Layer) : list (Method * string) :=
  omap route_key stack.

End Table.

(** ** Sample requests and collaborators *)

Module Samples.
Import Http Server.

Definition get (p : string) : Request :=
  {| method := GET; path := p; query := []; headers := []; body := JS.Undefined |}.

Definition post_form (p : string) : Request :=
  {| method := POST; path := p; query := [];
     headers := [("content-type", "application/x-www-form-urlencoded")];
     body := JS.Str "q=1" |}.

Definition get_search : Request :=
  {| method := GET; path := "/movies"; query := [("page", "2")];
     headers := [("accept", "text/html")]; body := JS.Undefined |}.

(** A middleware that passes every request on unchanged. *)
Definition pass_on : Middleware := Next.

(** A static-asset collaborator with one file, [/css/main.css]. *)
Definition one_file : Middleware := λ req,
  if bool_decide (method req = GET) && String.eqb (path req) "/css/main.css"
  then Done {| statusCode := 200; rendered := [] |}
  else Next req.

(** A static-asset collaborator whose directory holds an [index.html],
    served for the root path. *)
Definition index_html : Middleware := λ req,
  if bool_decide (method req = GET) && String.eqb (path req) "/"
  then Done {| statusCode := 200; rendered := [] |}
  else Next req.

(** A body parser that rejects every request that carries a body. *)
Definition reject_bodies : Middleware := λ req,
  match body req with
  | JS.Undefined => Next req
  | _ => Done {| statusCode := 400; rendered := [] |}
  end.

End Samples.

Import Http Routes Server Startup Table.

(** ** Properties of the handlers *)

Lemma handler_appends (h : HandlerName) (req : Request) (res : Response) :
  handler h req res =
    {| statusCode := statusCode res; rendered := rendered res ++ produced h req |}.
Proof. by destruct h. Qed.

(** ** Properties of the route table *)

Lemma route_matches_spec (m : Method) (p : string) (req : Request) :
  route_matches m p req = true ↔ method req = m ∧ path req = p.
Proof.
  unfold route_matches.
  by rewrite andb_true_iff, bool_decide_eq_true, String.eqb_eq.
Qed.

Lemma registered_paths_cases (p : string) :
  p ∈ registered_paths ↔ p = "/" ∨ p = "/movies" ∨ p = "/tv-shows".
Proof.
  unfold registered_paths.
  rewrite !elem_of_cons, elem_of_nil. tauto.
Qed.

Lemma routes_unmatched (req : Request) (res : Response) :
  method req ≠ GET ∨ path req ∉ registered_paths →
  dispatch routes req res = {| invoked := []; response := not_found res |}.
Proof.
  intros Hno. unfold routes. simpl.
  repeat match goal with
  | |- context [route_matches ?m ?p req] =>
      destruct (route_matches m p req) eqn:E;
      [ apply route_matches_spec in E as [Hm Hp]; exfalso;
        destruct Hno as [Hno | Hno];
        [ by apply Hno
        | apply Hno, registered_paths_cases; rewrite Hp; tauto ]
      | clear E ]
  end.
  reflexivity.
Qed.

Lemma routes_matched (req : Request) (res : Response) :
  method req = GET → path req ∈ registered_paths →
  ∃ h, dispatch routes req res = {| invoked := [h]; response := handler h req res |}
       ∧ Route GET (path req) h ∈ routes.
Proof.
  intros Hm [Hp | [Hp | Hp]]%registered_paths_cases;
    unfold routes; simpl; unfold route_matches; rewrite Hm, Hp; simpl.
  - exists RenderHome. split; [done | set_solver].
  - exists RenderMovies. split; [done | set_solver].
  - exists RenderTVShows. split; [done | set_solver].
Qed.

Section AppFacts.
Variables urlencoded json static : Middleware.

Lemma app_through (req req' : Request) :
  through_middleware urlencoded json static req = Next req' →
  app urlencoded json static req = router req'.
Proof.
  unfold through_middleware, app, app_stack, router. simpl.
  destruct (urlencoded req) as [r1 | ?]; [| done].
  destruct (json r1) as [r2 | ?]; [| done].
  by intros ->.
Qed.

Lemma app_intercepted (req : Request) (res : Response) :
  through_middleware urlencoded json static req = Done res →
  app urlencoded json static req = {| invoked := []; response := res |}.
Proof.
  unfold through_middleware, app, app_stack. simpl.
  destruct (urlencoded req) as [r1 | ?]; [| by intros [= ->]].
  destruct (json r1) as [r2 | ?]; [| by intros [= ->]].
  by intros ->.
Qed.

Lemma serve_lookup (reqs : list Request) (i : nat) :
  serve urlencoded json static reqs !! i
    = app urlencoded json static <$> reqs !! i.
Proof. unfold serve. apply list_lookup_fmap. Qed.

End AppFacts.

(** ** The model on concrete inputs *)

Example get_home_renders_home :
  router (Samples.get "/") =
    {| invoked := [RenderHome];
       response :=
         {| statusCode := 200;
            rendered :=
              [ {| templateName := "home";
                   context := {[ "currentPage" := JS.Str "home";
                                 "title" := JS.Str "Home - Shows Review" ]} |} ] |} |}.
Proof. reflexivity. Qed.

Example get_nonexistent_is_404 :
  router (Samples.get "/nonexistent") =
    {| invoked := []; response := {| statusCode := 404; rendered := [] |} |}.
Proof. reflexivity. Qed.

Example post_movies_is_404 :
  router (Samples.post_form "/movies") =
    {| invoked := []; response := {| statusCode := 404; rendered := [] |} |}.
Proof. reflexivity. Qed.

Example static_file_is_served :
  app Samples.pass_on Samples.pass_on Samples.one_file
      (Samples.get "/css/main.css") =
    {| invoked := []; response := {| statusCode := 200; rendered := [] |} |}.
Proof. reflexivity. Qed.

Example PORT_set : PORT {[ "PORT" := "8080"; "HOME" := "/root" ]} = JS.Str "8080".
Proof. reflexivity. Qed.

Example PORT_unset : PORT {[ "HOME" := "/root" ]} = JS.Num 3000.
Proof. reflexivity. Qed.

Example PORT_empty : PORT {[ "PORT" := "" ]} = JS.Num 3000.
Proof. reflexivity. Qed.

(** ** The contract of each handler *)

(** C1. [renderHome] succeeds on every request: whatever the request and
    the response it is given, it adds exactly one render request, for
    template "home" with the context made of exactly
    title = "Home - Shows Review" and currentPage = "home", and leaves the
    status code alone. Hence every GET request to "/" that reaches the
    Dispatcher invokes [renderHome] alone and answers with that view
    descriptor and status 200. *)
Theorem renderHome_view :
  (∀ (req : Request) (res : Response),
     renderHome req res =
       {| statusCode := statusCode res;
          rendered := rendered res ++
            [ {| templateName := "home";
                 context := {[ "title" := JS.Str "Home - Shows Review";
                               "currentPage" := JS.Str "home" ]} |} ] |})
  ∧ (∀ req : Request,
       method req = GET → path req = "/" →
       router req =
         {| invoked := [RenderHome];
            response :=
              {| statusCode := 200;
                 rendered :=
                   [ {| templateName := "home";
                        context := {[ "title" := JS.Str "Home - Shows Review";
                                      "currentPage" := JS.Str "home" ]} |} ] |} |}).
Proof.
  split; [done |].
  intros req Hm Hp.
  unfold router, routes. simpl. unfold route_matches.
  by rewrite Hm, Hp.
Qed.

Lemma renderHome_view_witness :
  method (Samples.get "/") = GET ∧ path (Samples.get "/") = "/" ∧
  templateName <$> rendered (response (router (Samples.get "/"))) = ["home"].
Proof.
  split; [reflexivity | split; [reflexivity |]].
  rewrite (proj2 renderHome_view (Samples.get "/")); reflexivity.
Defined.

(** C2. [renderMovies] succeeds on every request: it adds exactly one
    render request, for template "movies" with the context
    title = "Movies - Shows Review", currentPage = "movies". Hence every
    GET request to "/movies" that reaches the Dispatcher invokes
    [renderMovies] alone and answers with that view descriptor. *)
Theorem renderMovies_view :
  (∀ (req : Request) (res : Response),
     renderMovies req res =
       {| statusCode := statusCode res;
          rendered := rendered res ++
            [ {| templateName := "movies";
                 context := {[ "title" := JS.Str "Movies - Shows Review";
                               "currentPage" := JS.Str "movies" ]} |} ] |})
  ∧ (∀ req : Request,
       method req = GET → path req = "/movies" →
       router req =
         {| invoked := [RenderMovies];
            response :=
              {| statusCode := 200;
                 rendered :=
                   [ {| templateName := "movies";
                        context := {[ "title" := JS.Str "Movies - Shows Review";
                                      "currentPage" := JS.Str "movies" ]} |} ] |} |}).
Proof.
  split; [done |].
  intros req Hm Hp.
  unfold router, routes. simpl. unfold route_matches.
  by rewrite Hm, Hp.
Qed.

Lemma renderMovies_view_witness :
  method Samples.get_search = GET ∧ path Samples.get_search = "/movies" ∧
  templateName <$> rendered (response (router Samples.get_search)) = ["movies"].
Proof.
  split; [reflexivity | split; [reflexivity |]].
  rewrite (proj2 renderMovies_view Samples.get_search); reflexivity.
Defined.

(** C3. [renderTVShows] succeeds on every request: it adds exactly one
    render request, for template "tv-shows" with the context
    title = "TV Shows - Shows Review", currentPage = "tv-shows". Hence
    every GET request to "/tv-shows" that reaches the Dispatcher invokes
    [renderTVShows] alone and answers with that view descriptor. *)
Theorem renderTVShows_view :
  (∀ (req : Request) (res : Response),
     renderTVShows req res =
       {| statusCode := statusCode res;
          rendered := rendered res ++
            [ {| templateName := "tv-shows";
                 context := {[ "title" := JS.Str "TV Shows - Shows Review";
                               "currentPage" := JS.Str "tv-shows" ]} |} ] |})
  ∧ (∀ req : Request,
       method req = GET → path req = "/tv-shows" →
       router req =
         {| invoked := [RenderTVShows];
            response :=
              {| statusCode := 200;
                 rendered :=
                   [ {| templateName := "tv-shows";
                        context := {[ "title" := JS.Str "TV Shows - Shows Review";
                                      "currentPage" := JS.Str "tv-shows" ]} |} ] |} |}).
Proof.
  split; [done |].
  intros req Hm Hp.
  unfold router, routes. simpl. unfold route_matches.
  by rewrite Hm, Hp.
Qed.

Lemma renderTVShows_view_witness :
  method (Samples.get "/tv-shows") = GET ∧
  path (Samples.get "/tv-shows") = "/tv-shows" ∧
  templateName <$> rendered (response (router (Samples.get "/tv-shows")))
    = ["tv-shows"].
Proof.
  split; [reflexivity | split; [reflexivity |]].
  rewrite (proj2 renderTVShows_view (Samples.get "/tv-shows")); reflexivity.
Defined.

(** ** The not-found outcome *)

(** C4. A request that the middleware pass on and that matches no
    registration (its method is not GET, or its path is none of "/",
    "/movies", "/tv-shows") ends in the not-found outcome: status 404,
    nothing rendered, no handler invoked. The outcome is an ordinary value
    of the dispatch function, and the requests before and after it in a
    run are served as usual. *)
Theorem unmatched_is_not_found
    (urlencoded json static : Middleware) (req req' : Request) :
  through_middleware urlencoded json static req = Next req' →
  method req' ≠ GET ∨ path req' ∉ registered_paths →
  Forall (λ l, match l with
               | Route m p _ => route_matches m p req' = false
               | Use _ => True
               end) routes
  ∧ app urlencoded json static req =
      {| invoked := [];
         response := {| statusCode := 404; rendered := [] |} |}
  ∧ (∀ before after : list Request,
       serve urlencoded json static (before ++ req :: after) =
         serve urlencoded json static before ++
         {| invoked := [];
            response := {| statusCode := 404; rendered := [] |} |}
         :: serve urlencoded json static after).
Proof.
  intros Hthrough Hno.
  assert (app urlencoded json static req =
            {| invoked := [];
               response := {| statusCode := 404; rendered := [] |} |})
    as Happ.
  { rewrite (app_through _ _ _ _ _ Hthrough). unfold router.
    by rewrite routes_unmatched. }
  split; [| split; [exact Happ |]].
  - unfold routes. repeat constructor;
      apply not_true_is_false; intros [Hm Hp]%route_matches_spec;
      (destruct Hno as [Hno | Hno];
       [ by apply Hno
       | apply Hno, registered_paths_cases; rewrite Hp; tauto ]).
  - intros before after. unfold serve.
    by rewrite map_app, map_cons, Happ.
Qed.

Lemma unmatched_is_not_found_witness :
  statusCode (response
    (app Samples.pass_on Samples.pass_on Samples.one_file
       (Samples.get "/nonexistent"))) = 404%Z
  ∧ invoked
      (app Samples.pass_on Samples.pass_on Samples.one_file
         (Samples.post_form "/movies")) = [].
Proof.
  split.
  - destruct (unmatched_is_not_found Samples.pass_on Samples.pass_on
                Samples.one_file (Samples.get "/nonexistent")
                (Samples.get "/nonexistent")) as (_ & -> & _).
    + reflexivity.
    + right. rewrite registered_paths_cases. simpl.
      intros [H | [H | H]]; discriminate H.
    + reflexivity.
  - destruct (unmatched_is_not_found Samples.pass_on Samples.pass_on
                Samples.one_file (Samples.post_form "/movies")
                (Samples.post_form "/movies")) as (_ & -> & _).
    + reflexivity.
    + left. simpl. discriminate.
    + reflexivity.
Defined.

(** ** Invariants of the view descriptors *)

(** C5. In every view descriptor a handler produces, for any request, a
    currentPage entry of the context holds one of "home", "movies",
    "tv-shows". *)
Theorem currentPage_is_navigation_id
    (h : HandlerName) (req : Request) (vd : ViewDescriptor) (v : JS.value) :
  vd ∈ produced h req →
  context vd !! "currentPage" = Some v →
  v ∈ navigation_ids.
Proof.
  unfold navigation_ids.
  destruct h; cbn; intros ->%list_elem_of_singleton; cbn;
    intros [= <-]; set_solver.
Qed.

Lemma currentPage_is_navigation_id_witness :
  JS.Str "movies" ∈ navigation_ids.
Proof.
  apply (currentPage_is_navigation_id RenderMovies Samples.get_search
           {| templateName := "movies";
              context := {[ "title" := JS.Str "Movies - Shows Review";
                            "currentPage" := JS.Str "movies" ]} |}).
  - apply list_elem_of_singleton. reflexivity.
  - reflexivity.
Defined.

(** ** Independence of requests *)

(** C6. Take any two runs of the server and any two positions in them
    that hold GET requests to the same registered path (after the
    middleware has passed them on). Whatever was served before or
    between them, both positions give the same outcome: one handler
    invoked, status 200 and the same single view descriptor. A handler
    touches nothing but the response of its own request, to which it
    appends its render request. *)
Theorem repeated_get_same_view
    (urlencoded json static : Middleware)
    (run1 run2 : list Request) (i j : nat)
    (r1 r2 r1' r2' : Request) (p : string) :
  p ∈ registered_paths →
  run1 !! i = Some r1 → run2 !! j = Some r2 →
  through_middleware urlencoded json static r1 = Next r1' →
  through_middleware urlencoded json static r2 = Next r2' →
  method r1' = GET → path r1' = p →
  method r2' = GET → path r2' = p →
  serve urlencoded json static run1 !! i
    = serve urlencoded json static run2 !! j
  ∧ (∃ (h : HandlerName) (vd : ViewDescriptor),
       serve urlencoded json static run1 !! i =
         Some {| invoked := [h];
                 response := {| statusCode := 200; rendered := [vd] |} |})
  ∧ (∀ (h : HandlerName) (req : Request) (res : Response),
       statusCode (handler h req res) = statusCode res
       ∧ rendered (handler h req res) = rendered res ++ produced h req).
Proof.
  intros Hp Hi Hj Ht1 Ht2 Hm1 Hp1 Hm2 Hp2.
  rewrite !serve_lookup, Hi, Hj.
  replace (app urlencoded json static <$> Some r1)
    with (Some (app urlencoded json static r1)) by reflexivity.
  replace (app urlencoded json static <$> Some r2)
    with (Some (app urlencoded json static r2)) by reflexivity.
  rewrite (app_through _ _ _ _ _ Ht1), (app_through _ _ _ _ _ Ht2).
  unfold router, routes. cbn. unfold route_matches.
  rewrite Hm1, Hm2, Hp1, Hp2.
  split; [| split].
  - apply registered_paths_cases in Hp as [-> | [-> | ->]]; reflexivity.
  - apply registered_paths_cases in Hp as [-> | [-> | ->]]; cbn; eauto.
  - intros h req res. by rewrite handler_appends.
Qed.

Lemma repeated_get_same_view_witness :
  serve Samples.pass_on Samples.pass_on Samples.one_file
    [Samples.get "/movies"; Samples.get "/"; Samples.post_form "/movies";
     Samples.get_search] !! 3
  = serve Samples.pass_on Samples.pass_on Samples.one_file
      [Samples.get "/css/main.css"; Samples.get "/movies"] !! 1.
Proof.
  apply (repeated_get_same_view Samples.pass_on Samples.pass_on
           Samples.one_file _ _ 3 1
           Samples.get_search (Samples.get "/movies")
           Samples.get_search (Samples.get "/movies") "/movies");
    try reflexivity.
  apply registered_paths_cases. right. left. reflexivity.
Defined.

(** C7. Each handler is a constant function of the request: on the same
    response, any two requests give the same result, whatever their
    headers, query string or body. A handler is a function of the request
    and of its response alone, so it reads and writes nothing else. *)
Theorem handler_ignores_request
    (h : HandlerName) (r1 r2 : Request) (res : Response) :
  handler h r1 res = handler h r2 res
  ∧ produced h r1 = produced h r2.
Proof. by destruct h. Qed.

(** ** The listening port *)

(** C8. When the environment supplies a port (a non-empty value, as every
    port number is), [PORT] is that value; when the variable is unset,
    [PORT] is 3000. *)
Theorem PORT_from_env (env : gmap string string) :
  (∀ s : string, env !! "PORT" = Some s → s ≠ "" → PORT env = JS.Str s)
  ∧ (env !! "PORT" = None → PORT env = JS.Num 3000).
Proof.
  unfold PORT, env_get. split.
  - intros s -> Hs. unfold JS.or. cbn.
    by apply String.eqb_neq in Hs as ->.
  - by intros ->.
Qed.

Lemma PORT_from_env_witness :
  PORT {[ "PORT" := "8080" ]} = JS.Str "8080" ∧ PORT ∅ = JS.Num 3000.
Proof.
  split.
  - apply (proj1 (PORT_from_env {[ "PORT" := "8080" ]}) "8080").
    + reflexivity.
    + discriminate.
  - apply (proj2 (PORT_from_env ∅)). reflexivity.
Defined.

(** ** Shape of the contexts *)

(** C9. Every handler produces exactly one view descriptor, and in it
    the template name is the value of the context's currentPage. *)
Theorem templateName_is_currentPage
    (h : HandlerName) (req : Request) :
  ∃ vd : ViewDescriptor,
    produced h req = [vd]
    ∧ context vd !! "currentPage" = Some (JS.Str (templateName vd)).
Proof. destruct h; eexists; (split; [reflexivity |]); reflexivity. Qed.

(** C10. Every handler produces exactly one view descriptor, and the
    keys of its context are exactly title and currentPage. *)
Theorem context_keys
    (h : HandlerName) (req : Request) :
  ∃ vd : ViewDescriptor,
    produced h req = [vd]
    ∧ dom (context vd) = ({[ "title"; "currentPage" ]} : gset string).
Proof.
  destruct h; eexists; (split; [reflexivity |]); cbn;
    by rewrite dom_insert_L, dom_singleton_L.
Qed.


(** ** More on the listening port *)

(** X1. [PORT] is the default 3000 exactly when the variable is unset or
    set to the empty string; every other value of the variable is kept,
    as a string. *)
Theorem PORT_default_iff (env : gmap string string) :
  (PORT env = JS.Num 3000
     ↔ env !! "PORT" = None ∨ env !! "PORT" = Some "")
  ∧ (∀ n : Z, PORT env = JS.Num n → n = 3000%Z)
  ∧ (∀ s : string, PORT env = JS.Str s ↔ env !! "PORT" = Some s ∧ s ≠ "").
Proof.
  unfold PORT, env_get, JS.or.
  destruct (env !! "PORT") as [v |]; cbn.
  - destruct (String.eqb_spec v "") as [-> | Hv]; cbn.
    + split; [| split].
      * split; [by right | done].
      * by intros n [= <-].
      * intros s. split; [done | by intros [[= <-] ?]].
    + split; [| split].
      * split; [done | by intros [? | [= ?]]].
      * done.
      * intros s. split; [by intros [= <-] | by intros [[= <-] _]].
  - split; [| split].
    + split; [by left | done].
    + by intros n [= <-].
    + intros s. split; [done | by intros [? _]].
Qed.

Lemma PORT_default_iff_witness :
  PORT {[ "PORT" := ""; "DB_PORT" := "5432" ]} = JS.Num 3000
  ∧ ({[ "PORT" := "0" ]} : gmap string string) !! "PORT" = Some "0".
Proof.
  split.
  - apply (proj1 (PORT_default_iff {[ "PORT" := ""; "DB_PORT" := "5432" ]})).
    right. reflexivity.
  - apply (proj1 (proj2 (proj2 (PORT_default_iff {[ "PORT" := "0" ]})) "0")).
    reflexivity.
Defined.

(** X2. Whatever the environment, [PORT] is truthy: [listen] is never
    handed [undefined], an empty string or the number 0. *)
Theorem PORT_truthy (env : gmap string string) :
  JS.truthy (PORT env) = true
  ∧ PORT env ≠ JS.Undefined ∧ PORT env ≠ JS.Str "" ∧ PORT env ≠ JS.Num 0.
Proof.
  assert (JS.truthy (PORT env) = true) as Ht.
  { unfold PORT, JS.or.
    by destruct (JS.truthy (env_get env "PORT")) eqn:E. }
  split; [exact Ht |].
  by repeat split; intros Heq; rewrite Heq in Ht.
Qed.

(** X3. [PORT] reads the variable named PORT and no other: setting or
    unsetting any other variable, DB_PORT for one, leaves it as it
    is. *)
Theorem PORT_other_variables
    (env : gmap string string) (name value : string) :
  name ≠ "PORT" →
  PORT (<[name := value]> env) = PORT env
  ∧ PORT (delete name env) = PORT env.
Proof.
  intros Hne. unfold PORT, env_get.
  by rewrite lookup_insert_ne, lookup_delete_ne.
Qed.

Lemma PORT_other_variables_witness :
  PORT (<["DB_PORT" := "5432"]> {[ "PORT" := "8080" ]})
    = PORT {[ "PORT" := "8080" ]}
  ∧ PORT (delete "DB_PORT" {[ "PORT" := "8080" ]})
    = PORT {[ "PORT" := "8080" ]}.
Proof.
  apply (PORT_other_variables {[ "PORT" := "8080" ]} "DB_PORT" "5432").
  discriminate.
Defined.

(** ** The startup line *)


(** ** More on the application stack *)


Lemma dispatch_Permutation (l1 l2 : list Layer) (req : Request) (res : Response) :
  Forall (λ l, is_Some (route_key l)) l1 →
  NoDup (route_keys l1) →
  l1 ≡ₚ l2 →
  dispatch l1 req res = dispatch l2 req res.
Proof.
  intros Hall Hnd Hperm.
  induction Hperm as [| x l l' Hp IH | x y l | l l' l'' Hp1 IH1 Hp2 IH2].
  - reflexivity.
  - apply Forall_cons in Hall as [Hx Hall].
    destruct x as [mw | m p h]; [by destruct Hx |].
    unfold route_keys in Hnd. cbn in Hnd.
    apply NoDup_cons in Hnd as [_ Hnd].
    cbn [dispatch].
    destruct (route_matches m p req); [reflexivity | by apply IH].
  - apply Forall_cons in Hall as [Hy [Hx _]%Forall_cons].
    destruct x as [mw | m1 p1 h1]; [by destruct Hx |].
    destruct y as [mw | m2 p2 h2]; [by destruct Hy |].
    unfold route_keys in Hnd. cbn in Hnd.
    apply NoDup_cons in Hnd as [Hne _].
    cbn [dispatch].
    destruct (route_matches m2 p2 req) eqn:E2,
             (route_matches m1 p1 req) eqn:E1; try reflexivity.
    apply route_matches_spec in E1 as [<- <-].
    apply route_matches_spec in E2 as [<- <-].
    exfalso. apply Hne. by left.
  - rewrite IH1 by done. apply IH2.
    + by rewrite <- Hp1.
    + unfold route_keys in *. by rewrite <- Hp1.
Qed.

(** X4. The body parsers and the static collaborator come before the
    routes: when one of them ends a request, no page handler is invoked,
    and the response is the middleware's own, also for a GET request to
    a registered path. *)
Theorem middleware_shadows_routes
    (urlencoded json static : Middleware) (req : Request) (res : Response) :
  through_middleware urlencoded json static req = Done res →
  invoked (app urlencoded json static req) = []
  ∧ response (app urlencoded json static req) = res.
Proof.
  intros Hdone. by rewrite (app_intercepted _ _ _ _ _ Hdone).
Qed.

Lemma middleware_shadows_routes_witness :
  path (Samples.get "/") ∈ registered_paths
  ∧ invoked (app Samples.pass_on Samples.pass_on Samples.index_html
               (Samples.get "/")) = []
  ∧ statusCode (response
      (app Samples.reject_bodies Samples.pass_on Samples.index_html
         (Samples.post_form "/movies"))) = 400%Z.
Proof.
  split; [apply registered_paths_cases; by left |].
  split.
  - apply (middleware_shadows_routes Samples.pass_on Samples.pass_on
             Samples.index_html (Samples.get "/")
             {| statusCode := 200; rendered := [] |}).
    reflexivity.
  - rewrite (proj2 (middleware_shadows_routes Samples.reject_bodies
               Samples.pass_on Samples.index_html (Samples.post_form "/movies")
               {| statusCode := 400; rendered := [] |} eq_refl)).
    reflexivity.
Defined.


(** X6. The three registrations have pairwise distinct method and path,
    so their order carries no weight: registering them in any other
    order dispatches every request to the same outcome. *)
Theorem route_order_irrelevant
    (stack : list Layer) (req : Request) (res : Response) :
  routes ≡ₚ stack →
  dispatch stack req res = dispatch routes req res.
Proof.
  intros Hperm. symmetry.
  apply dispatch_Permutation; [| | exact Hperm].
  - unfold routes. by repeat constructor.
  - unfold route_keys, routes. cbn.
    compute_done.
Qed.

Lemma route_order_irrelevant_witness :
  dispatch (reverse routes) Samples.get_search new_response
    = dispatch routes Samples.get_search new_response.
Proof.
  apply (route_order_irrelevant (reverse routes) Samples.get_search
           new_response).
  apply Permutation_sym, reverse_Permutation.
Defined.

(** ** More on the handlers *)

(** X8. Distinct handlers render distinct pages: two views that share
    the template name, or the title, come from the same handler. *)
Theorem views_identify_handler
    (h1 h2 : HandlerName) (r1 r2 : Request) (vd1 vd2 : ViewDescriptor) :
  vd1 ∈ produced h1 r1 → vd2 ∈ produced h2 r2 →
  templateName vd1 = templateName vd2
    ∨ context vd1 !! "title" = context vd2 !! "title" →
  h1 = h2.
Proof.
  destruct h1, h2; cbn;
    intros ->%list_elem_of_singleton ->%list_elem_of_singleton;
    cbn; intros [Heq | Heq]; (reflexivity || discriminate Heq).
Qed.

Lemma views_identify_handler_witness : RenderMovies = RenderMovies.
Proof.
  apply (views_identify_handler RenderMovies RenderMovies
           (Samples.get "/movies") Samples.get_search
           {| templateName := "movies";
              context := {[ "title" := JS.Str "Movies - Shows Review";
                            "currentPage" := JS.Str "movies" ]} |}
           {| templateName := "movies";
              context := {[ "title" := JS.Str "Movies - Shows Review";
                            "currentPage" := JS.Str "movies" ]} |}).
  - apply list_elem_of_singleton. reflexivity.
  - apply list_elem_of_singleton. reflexivity.
  - left. reflexivity.
Defined.
